(** * The XMTP subscribe-button frame: click handler and consent page

    A shallow embedding of the two pieces of code the repository documents in
    its README: the frame endpoint's click handler ([app/api/frame/route.ts],
    README steps 3 and 4 with the "Managing Frame State" list) and the consent
    page's [handleClick] ([pages/consent.tsx]).

    Asynchronous JavaScript is modelled by a state-and-exception monad: every
    [await]ed call either yields a value or throws, and a thrown exception
    leaves the effects made so far in place.  The external collaborators
    (Neynar directory, wallet, XMTP client, key-value store) are oracles
    collected in a record, one answer per call site.  The README shows no
    code for the store; its read and its write follow the README's list and
    the design document, and the place of the write among the statements of
    step 4, on which the two differ, is a parameter. *)

From Stdlib Require Import ZArith SpecFloat.
From stdpp Require Import gmap strings list.

Local Open Scope string_scope.

(** ** Exceptions and outcomes *)

(** What a rejected promise or the JS runtime can throw.  [TypeError] is the
    runtime's own (a property read on [null] or [undefined]) and
    [SyntaxError] the rejection of [req.json()] on a body that is not JSON;
    the next five are the rejections of calls into services and SDKs; the last
    three are error kinds of the design document. *)
Inductive exn : Type :=
  | TypeError
  | SyntaxError
  | FetchFailed
  | WalletFailed
  | ClientFailed
  | RefreshFailed
  | ConsentCallFailed
  | IdentityNotFound
  | PresenceCheckFailed
  | MessageDeliveryFailed.

Inductive outcome (A : Type) : Type :=
  | Returned (a : A)
  | Threw (e : exn).
Arguments Returned {A} a.
Arguments Threw {A} e.

(** A computation over a mutable state [S] that may throw. *)
Definition M (S A : Type) : Type := S -> outcome A * S.

Definition ret {S A} (a : A) : M S A := fun s => (Returned a, s).
Definition throw {S A} (e : exn) : M S A := fun s => (Threw e, s).
Definition bind {S A B} (m : M S A) (k : A -> M S B) : M S B :=
  fun s => match m s with
           | (Returned a, s') => k a s'
           | (Threw e, s') => (Threw e, s')
           end.
Definition modify {S} (f : S -> S) : M S unit := fun s => (Returned tt, f s).
Definition gets {S A} (f : S -> A) : M S A := fun s => (Returned (f s), s).

(** [try { m } catch (error) { h error }] *)
Definition try_catch {S A} (m : M S A) (h : exn -> M S A) : M S A :=
  fun s => match m s with
           | (Returned a, s') => (Returned a, s')
           | (Threw e, s') => h e s'
           end.

Notation "'let*' x ':=' m 'in' k" := (bind m (fun x => k))
  (at level 10, x name, m at level 100, k at level 200).
Notation "m ';;;' k" := (bind m (fun _ => k))
  (at level 100, k at level 200, right associativity).

(** A JavaScript [string | undefined]. *)
Abbreviation address := (option string).

Definition dquote : string := String (Ascii.ascii_of_nat 34) EmptyString.
Definition newline : string := String (Ascii.ascii_of_nat 10) EmptyString.

(** ** The frame endpoint *)
Module Frame.

#[local] Set Warnings "-register-all".

(** What [JSON.parse] can give.  A number is a double; the members of an
    object are kept in the order of the text. *)
Inductive json : Type :=
  | JNull
  | JBool (b : bool)
  | JNumber (x : spec_float)
  | JString (s : string)
  | JArray (items : list json)
  | JObject (members : list (string * json)).

(** A JavaScript value read out of the body: a JSON value or [undefined]. *)
Abbreviation jsvalue := (option json).

(** The member of an object under a name; of two members with one name
    [JSON.parse] keeps the later. *)
Fixpoint member (k : string) (ms : list (string * json)) : jsvalue :=
  match ms with
  | [] => None
  | (k', v) :: ms =>
      match member k ms with
      | Some v' => Some v'
      | None => if String.eqb k k' then Some v else None
      end
  end.

(** [v.k], for a name that no prototype defines (as the three names read
    below): [null] throws, an object gives its member, anything else gives
    [undefined]. *)
Definition prop (v : json) (k : string) : outcome jsvalue :=
  match v with
  | JNull => Threw TypeError
  | JObject ms => Returned (member k ms)
  | JBool _ | JNumber _ | JString _ | JArray _ => Returned None
  end.

(** [v?.k]: [undefined] and [null] give [undefined], anything else is read
    as by [v.k]. *)
Definition optProp (v : jsvalue) (k : string) : jsvalue :=
  match v with
  | Some (JObject ms) => member k ms
  | _ => None
  end.

(** The request, as far as the handler reads it: a body that is not JSON, or
    the value the body parses to.  The type the excerpt annotates [body] with
    is not checked at run time. *)
Inductive request : Type :=
  | NotJson
  | Json (body : json).

(** The part of the Neynar answer the handler reads: [data.users] and each
    user's [verifications]; either property may be absent. *)
Record user := { verifications : option (list string) }.
Record directory_data := { users : option (list user) }.

(** The collaborators' answers during one click.  [None] / [false] stand for a
    rejected promise.  The directory is asked with the value of [fid] that
    the handler puts into the URL. *)
Record world := {
  neynar : jsvalue -> option directory_data;
  wallet_ok : bool;
  client_ok : bool;
  isOnNetwork : address -> option bool;
  conversation_ok : address -> bool;
  send_ok : address -> bool
}.

(** The calls a click makes, in order.  [EvSend] carries whether the promise
    of the send, which the handler does not await, settles successfully. *)
Inductive event : Type :=
  | EvDirectoryLookup (f : jsvalue)
  | EvStoreGet (a : address)
  | EvInitWallet
  | EvCreateClient
  | EvPresenceCheck (a : address) (answer : option bool)
  | EvStoreSet (a : address)
  | EvNewConversation (a : address)
  | EvSend (a : address) (text : string) (delivered : bool).

(** The subscription store (the README's "localDB" / Redis database), keyed
    by whatever value [accountAddress] holds, and the calls made so far. *)
Record state := { store : gmap address bool; trace : list event }.

Definition lift {A} (o : outcome A) : M state A := fun s => (o, s).

Definition emit (e : event) : M state unit :=
  modify (fun s => {| store := store s; trace := trace s ++ [e] |}).

(** [await req.json()] *)
Definition reqJson (req : request) : M state json :=
  match req with
  | NotJson => throw SyntaxError
  | Json body => ret body
  end.

(** [fetch(...)] followed by [response.json()]. *)
Definition fetchUser (w : world) (f : jsvalue) : M state directory_data :=
  emit (EvDirectoryLookup f) ;;;
  match neynar w f with
  | Some data => ret data
  | None => throw FetchFailed
  end.

(** [data.users[0]]: a missing [users] throws, an empty array gives
    [undefined]. *)
Definition firstUser (data : directory_data) : M state (option user) :=
  match users data with
  | None => throw TypeError
  | Some us => ret (head us)
  end.

(** [user.verifications[0]]: an [undefined] user or a missing [verifications]
    throws, an empty array gives [undefined]. *)
Definition firstVerification (u : option user) : M state address :=
  match u with
  | None => throw TypeError
  | Some u =>
      match verifications u with
      | None => throw TypeError
      | Some vs => ret (head vs)
      end
  end.

(** README, "Extracting account address and button index", from the fetch
    on. *)
Definition resolveAddress (w : world) (f : jsvalue) : M state address :=
  let* data := fetchUser w f in
  let* u := firstUser data in
  firstVerification u.

(** Modelled from the spec: the read of the store is in no code excerpt.  The
    README's list ("Managing Frame State", item 1) and the design document
    (4.2, 4.6) have it after the address is known and before the presence
    check, answering whether the address is marked subscribed. *)
Definition isSubscribed (a : address) : M state bool :=
  emit (EvStoreGet a) ;;;
  gets (fun s => bool_decide (store s !! a = Some true)).

(** Modelled from the spec: the write to the store is in no code excerpt.
    The README's list (item 3) and the design document (4.2, 4.6) have one
    write, for the address of the click, marking it subscribed. *)
Definition setSubscribed (a : address) : M state unit :=
  emit (EvStoreSet a) ;;;
  modify (fun s => {| store := <[a := true]> (store s); trace := trace s |}).

(** Where, on the path of an address that is on the network, the write sits.
    No excerpt shows it: the README's list names it before the conversation,
    the design document after the send.  The handler is modelled for each
    place it can take among the three statements of that path. *)
Inductive writeOrder : Type := WriteFirst | WriteBeforeSend | WriteLast.

Definition sameOrder (a b : writeOrder) : bool :=
  match a, b with
  | WriteFirst, WriteFirst
  | WriteBeforeSend, WriteBeforeSend
  | WriteLast, WriteLast => true
  | _, _ => false
  end.

(** The write, if [here] is its place. *)
Definition writeAt (here o : writeOrder) (a : address) : M state unit :=
  if sameOrder here o then setSubscribed a else ret tt.

Definition initializeWallet (w : world) : M state unit :=
  emit EvInitWallet ;;;
  if wallet_ok w then ret tt else throw WalletFailed.

Definition createXMTPClient (w : world) : M state unit :=
  emit EvCreateClient ;;;
  if client_ok w then ret tt else throw ClientFailed.

(** Modelled from the spec: the helper [checkAddressIsOnNetwork] is named but
    not shown in the README.  Per the design document it answers with a
    boolean and fails with [PresenceCheckFailed] when the network call itself
    fails. *)
Definition checkAddressIsOnNetwork (w : world) (a : address) : M state bool :=
  emit (EvPresenceCheck a (isOnNetwork w a)) ;;;
  match isOnNetwork w a with
  | Some b => ret b
  | None => throw PresenceCheckFailed
  end.

(** Modelled from the spec: the helper [newConversation] is named but not
    shown in the README.  Per the design document a failure to open the
    conversation is a [MessageDeliveryFailed]. *)
Definition newConversation (w : world) (a : address) : M state address :=
  emit (EvNewConversation a) ;;;
  if conversation_ok w a then ret a else throw MessageDeliveryFailed.

(** [sendMessage(conversation, text)] without [await]: the call is issued and
    its promise dropped, so the caller continues whatever becomes of it. *)
Definition sendMessage (w : world) (conversation : address) (text : string)
  : M state unit :=
  emit (EvSend conversation text (send_ok w conversation)).

(** The template literal of the opt-in message. *)
Definition optInText (apiUrl : string) : string :=
  "You're almost there! If you're viewing this in an inbox with portable consent, simply click the "
  +:+ dquote +:+ "Accept" +:+ dquote +:+
  " button below to complete your subscription and start receiving updates. If the button doesn't appear, please confirm your consent by visiting the following link:"
  +:+ newline +:+ newline +:+ "    " +:+ apiUrl +:+ "/consent" +:+ newline +:+ newline +:+
  "    This ensures your privacy and consent are respected. Thank you for joining us!".

Definition lblAlready : string := "You are already subscribed".
Definition lblSubscribed : string :=
  "Subscribed! Check your inbox for a confirmation link.".
Definition lblNotOnNetwork : string := "Address is not on the XMTP network. ".

(** README step 4, from the wallet to the label.  The three [writeAt] mark
    the places the store write can take; exactly one of them writes. *)
Definition subscribe (o : writeOrder) (w : world) (apiUrl : string)
    (accountAddress : address) : M state string :=
  initializeWallet w ;;;
  createXMTPClient w ;;;
  let* onNetwork := checkAddressIsOnNetwork w accountAddress in
  if onNetwork then
    writeAt WriteFirst o accountAddress ;;;
    let* conversation := newConversation w accountAddress in
    let returnMessage := lblSubscribed in
    writeAt WriteBeforeSend o accountAddress ;;;
    sendMessage w conversation (optInText apiUrl) ;;;
    writeAt WriteLast o accountAddress ;;;
    ret returnMessage
  else ret lblNotOnNetwork.

(** The click handler: the label put on the button of the answering frame.
    [buttonIndex] is read from the body as in the excerpt and not used. *)
Definition getResponse (o : writeOrder) (w : world) (apiUrl : string)
    (req : request) : M state string :=
  let* body := reqJson req in
  let* untrustedData := lift (prop body "untrustedData") in
  let fid := optProp untrustedData "fid" in
  let buttonIndex := optProp untrustedData "buttonIndex" in
  let* accountAddress := resolveAddress w fid in
  let* subscribed := isSubscribed accountAddress in
  if subscribed then ret lblAlready
  else subscribe o w apiUrl accountAddress.

(** One click against a store, with a fresh call trace. *)
Definition click (o : writeOrder) (w : world) (apiUrl : string)
    (req : request) (db : gmap address bool) : outcome string * state :=
  getResponse o w apiUrl req {| store := db; trace := [] |}.

End Frame.

(** ** The consent page *)
Module Consent.

(** The values of [client.contacts.consentState(...)]. *)
Inductive consentState : Type := unknown | allowed | denied.

Definition consentName (s : consentState) : string :=
  match s with
  | unknown => "unknown"
  | allowed => "allowed"
  | denied => "denied"
  end.

(** What the wallet and the XMTP SDK answer during one click: each call
    returns or throws. *)
Record world := {
  connectWallet_result : outcome unit;
  create_result : outcome string;      (* the new client's address *)
  refresh_result : outcome unit;
  allow_result : outcome unit;
  deny_result : outcome unit
}.

Inductive log_entry : Type :=
  | LogText (s : string)
  | LogError (e : exn).

(** The component's two state variables, the browser console, the consent
    list of the client created by the click and the list the network holds.
    An address absent from a list is [unknown]. *)
Record state := {
  loading : bool;
  subscriptionStatus : string;
  console : list log_entry;
  consentList : gmap string consentState;
  network : gmap string consentState
}.

Definition lift {A} (o : outcome A) : M state A := fun s => (o, s).

Definition setLoading (b : bool) : M state unit :=
  modify (fun s => {| loading := b; subscriptionStatus := subscriptionStatus s;
                      console := console s; consentList := consentList s;
                      network := network s |}).

Definition setSubscriptionStatus (l : string) : M state unit :=
  modify (fun s => {| loading := loading s; subscriptionStatus := l;
                      console := console s; consentList := consentList s;
                      network := network s |}).

Definition console_log (e : log_entry) : M state unit :=
  modify (fun s => {| loading := loading s;
                      subscriptionStatus := subscriptionStatus s;
                      console := console s ++ [e]; consentList := consentList s;
                      network := network s |}).

Definition setConsentList (l : gmap string consentState) : M state unit :=
  modify (fun s => {| loading := loading s;
                      subscriptionStatus := subscriptionStatus s;
                      console := console s; consentList := l;
                      network := network s |}).

Definition setNetwork (l : gmap string consentState) : M state unit :=
  modify (fun s => {| loading := loading s;
                      subscriptionStatus := subscriptionStatus s;
                      console := console s; consentList := consentList s;
                      network := l |}).

Definition connectWallet (w : world) : M state unit :=
  lift (connectWallet_result w).

(** [Client.create(wallet, ...)]: a client with an empty consent list. *)
Definition createClient (w : world) : M state string :=
  let* a := lift (create_result w) in
  setConsentList ∅ ;;;
  ret a.

(** [client.contacts.refreshConsentList()]: the client's list becomes the
    network's. *)
Definition refreshConsentList (w : world) : M state unit :=
  lift (refresh_result w) ;;;
  let* l := gets network in
  setConsentList l.

(** [client.contacts.consentState(address)] *)
Definition readConsent (a : string) : M state consentState :=
  gets (fun s => default unknown (consentList s !! a)).

(** [client.contacts.allow([address])] and [client.contacts.deny([address])]:
    the entry is published to the network and kept in the client's list. *)
Definition record (a : string) (c : consentState) : M state unit :=
  let* l := gets consentList in
  let* n := gets network in
  setConsentList (<[a := c]> l) ;;;
  setNetwork (<[a := c]> n).

Definition contactsAllow (w : world) (a : string) : M state unit :=
  lift (allow_result w) ;;; record a allowed.

Definition contactsDeny (w : world) (a : string) : M state unit :=
  lift (deny_result w) ;;; record a denied.

Definition statusLabel (s : consentState) : string :=
  "Consent State: " +:+ consentName s.

(** The [if ... else if ...] that flips the consent. *)
Definition toggleConsent (w : world) (a : string) (st : consentState)
  : M state consentState :=
  match st with
  | unknown | denied =>
      let st := allowed in
      contactsAllow w a ;;; ret st
  | allowed =>
      let st := denied in
      contactsDeny w a ;;; ret st
  end.

(** The body of the [try] block. *)
Definition handleClickBody (w : world) : M state unit :=
  setLoading true ;;;
  let* wallet := connectWallet w in
  let* client := createClient w in
  console_log (LogText client) ;;;
  refreshConsentList w ;;;
  let* st := readConsent client in
  let* st := toggleConsent w client st in
  setSubscriptionStatus (statusLabel st) ;;;
  setLoading false.

Definition handleClick (w : world) : M state unit :=
  try_catch (handleClickBody w) (fun error => console_log (LogError error)).

(** The consent the network holds for an address. *)
Definition consentOf (s : state) (a : string) : consentState :=
  default unknown (network s !! a).

End Consent.

(** ** The Next.js configuration *)
Module NextConfig.

(** A regular expression made of literal characters, with or without a
    closing [$]: what [/\.wasm$/] needs. *)
Record regex := { literal : string; anchoredEnd : bool }.

(** The match attempted at one position. *)
Definition matchHere (r : regex) (s : string) : bool :=
  if anchoredEnd r then String.eqb s (literal r)
  else String.prefix (literal r) s.

(** [r.test(s)]: the expression is tried at every position, from the left. *)
Fixpoint test (r : regex) (s : string) : bool :=
  matchHere r s ||
  match s with
  | EmptyString => false
  | String _ s' => test r s'
  end.

Record rule := { ruleTest : regex; ruleType : string }.

(** The webpack configuration the hook receives: the rules under
    [config.module.rules], absent when [module] or [rules] is, and the other
    settings, which the hook does not look at. *)
Record config (T : Type) := { moduleRules : option (list rule); settings : T }.
Arguments moduleRules {T} c.
Arguments settings {T} c.

Definition wasmPattern : regex := {| literal := ".wasm"; anchoredEnd := true |}.

Definition wasmRule : rule :=
  {| ruleTest := wasmPattern; ruleType := "asset/resource" |}.

(** [webpack: (config) => { config.module.rules.push({...}); return config; }] *)
Definition webpack {T} (c : config T) : outcome (config T) :=
  match moduleRules c with
  | None => Threw TypeError
  | Some rs =>
      Returned {| moduleRules := Some (rs ++ [wasmRule])%list;
                  settings := settings c |}
  end.

(** The hook called [n] times in a row, each time on the configuration the
    call before returned. *)
Fixpoint webpackTimes {T} (n : nat) (c : config T) : outcome (config T) :=
  match n with
  | O => Returned c
  | S n =>
      match webpackTimes n c with
      | Returned c' => webpack c'
      | Threw e => Threw e
      end
  end.

End NextConfig.

(** ** Reading a click's result *)
Module FrameProps.
Import Frame.

(** The value of [fid] after the first three lines of the excerpt, or what
    they throw. *)
Definition requestFid (req : request) : outcome jsvalue :=
  match req with
  | NotJson => Threw SyntaxError
  | Json body =>
      match prop body "untrustedData" with
      | Returned untrustedData => Returned (optProp untrustedData "fid")
      | Threw e => Threw e
      end
  end.

(** The same value where the lines return ([undefined] where they throw). *)
Definition bodyFid (req : request) : jsvalue :=
  match requestFid req with
  | Returned f => f
  | Threw _ => None
  end.

(** The address the excerpt of step 3 computes, without the rest of the
    click. *)
Definition resolved (w : world) (req : request) : outcome address :=
  match requestFid req with
  | Returned f => (resolveAddress w f {| store := ∅; trace := [] |}).1
  | Threw e => Threw e
  end.

Definition is_send (e : event) : bool :=
  match e with EvSend _ _ _ => true | _ => false end.

Definition is_store_write (e : event) : bool :=
  match e with EvStoreSet _ => true | _ => false end.

Definition is_messaging (e : event) : bool :=
  match e with EvNewConversation _ | EvSend _ _ _ => true | _ => false end.

(** A property that holds wherever the store write sits. *)
Definition in_every_order (P : writeOrder -> Prop) : Prop :=
  P WriteFirst ∧ P WriteBeforeSend ∧ P WriteLast.





(** "No verified address gives [IdentityNotFound], nothing written, nothing
    called after the directory". *)
Definition identity_failure_as_claimed (o : writeOrder) (w : world)
    (apiUrl : string) (req : request) (db : gmap address bool) : Prop :=
  (click o w apiUrl req db).1 = Threw IdentityNotFound ∧
  store (click o w apiUrl req db).2 = db ∧
  trace (click o w apiUrl req db).2 = [EvDirectoryLookup (bodyFid req)].

(** Two bodies that differ only in the [buttonIndex] of their
    [untrustedData]: both are objects whose [untrustedData] are objects, and
    every other member, of the body and of [untrustedData], is the same. *)
Definition differ_only_in_buttonIndex (b1 b2 : json) : Prop :=
  ∃ ms1 ms2 u1 u2,
    b1 = JObject ms1 ∧ b2 = JObject ms2 ∧
    member "untrustedData" ms1 = Some (JObject u1) ∧
    member "untrustedData" ms2 = Some (JObject u2) ∧
    (∀ k, k ≠ "untrustedData" → member k ms1 = member k ms2) ∧
    (∀ k, k ≠ "buttonIndex" → member k u1 = member k u2).

(** The double of an integer. *)
Definition num (z : Z) : json := JNumber (binary_normalize 53 1024 z 0 false).
Arguments num : simpl never.

(** The README's example payload, and the same with another button. *)
Definition payloadWith (button : Z) : request :=
  Json (JObject
    [("untrustedData",
      JObject [("fid", num 10952); ("buttonIndex", num button);
               ("castId",
                JObject [("fid", num 10952);
                         ("hash", JString "0x0000000000000000000000000000000000000001")])])]).

Definition payload : request := payloadWith 1.

Definition fid10952 : jsvalue := Some (num 10952).

Definition oneUser (vs : option (list string)) : option directory_data :=
  Some {| users := Some [ {| verifications := vs |} ] |}.

(** A directory that knows one verified address, and a network on which
    everything succeeds. *)
Definition fairWeather : world :=
  {| neynar := fun _ => oneUser (Some ["0xABC"]);
     wallet_ok := true; client_ok := true;
     isOnNetwork := fun _ => Some true;
     conversation_ok := fun _ => true;
     send_ok := fun _ => true |}.


Definition conversationFails : world :=
  {| neynar := neynar fairWeather;
     wallet_ok := true; client_ok := true;
     isOnNetwork := fun _ => Some true;
     conversation_ok := fun _ => false;
     send_ok := fun _ => false |}.

Definition offNetwork : world :=
  {| neynar := neynar fairWeather;
     wallet_ok := true; client_ok := true;
     isOnNetwork := fun _ => Some false;
     conversation_ok := fun _ => true;
     send_ok := fun _ => true |}.

Definition presenceDown : world :=
  {| neynar := neynar fairWeather;
     wallet_ok := true; client_ok := true;
     isOnNetwork := fun _ => None;
     conversation_ok := fun _ => true;
     send_ok := fun _ => true |}.

(** The directory knows the user but lists no verified address. *)
Definition noVerifications : world :=
  {| neynar := fun _ => oneUser (Some []);
     wallet_ok := true; client_ok := true;
     isOnNetwork := fun _ => Some true;
     conversation_ok := fun _ => true;
     send_ok := fun _ => true |}.

Definition abc : address := Some "0xABC".

(** The calls after a presence check that answered "yes", by the place of
    the write and by whether the conversation opens. *)
Definition afterPresence (o : writeOrder) (opened : bool) (a : address)
    (text : string) (d : bool) : list event :=
  match o, opened with
  | WriteFirst, false => [EvStoreSet a; EvNewConversation a]
  | (WriteBeforeSend | WriteLast), false => [EvNewConversation a]
  | WriteFirst, true => [EvStoreSet a; EvNewConversation a; EvSend a text d]
  | WriteBeforeSend, true => [EvNewConversation a; EvStoreSet a; EvSend a text d]
  | WriteLast, true => [EvNewConversation a; EvSend a text d; EvStoreSet a]
  end.

(** The nine ways a click can go, each with its result. *)
Inductive click_case (o : writeOrder) (w : world) (url : string)
    (req : request) (db : gmap address bool) : outcome string * state -> Prop :=
  | case_unreadable e :
      requestFid req = Threw e ->
      click_case o w url req db (Threw e, {| store := db; trace := [] |})
  | case_unresolved e :
      requestFid req = Returned (bodyFid req) ->
      resolved w req = Threw e ->
      click_case o w url req db
        (Threw e, {| store := db; trace := [EvDirectoryLookup (bodyFid req)] |})
  | case_already a :
      requestFid req = Returned (bodyFid req) ->
      resolved w req = Returned a -> db !! a = Some true ->
      click_case o w url req db
        (Returned lblAlready,
         {| store := db;
            trace := [EvDirectoryLookup (bodyFid req); EvStoreGet a] |})
  | case_wallet a :
      requestFid req = Returned (bodyFid req) ->
      resolved w req = Returned a -> db !! a <> Some true ->
      wallet_ok w = false ->
      click_case o w url req db
        (Threw WalletFailed,
         {| store := db;
            trace := [EvDirectoryLookup (bodyFid req); EvStoreGet a;
                      EvInitWallet] |})
  | case_client a :
      requestFid req = Returned (bodyFid req) ->
      resolved w req = Returned a -> db !! a <> Some true ->
      wallet_ok w = true -> client_ok w = false ->
      click_case o w url req db
        (Threw ClientFailed,
         {| store := db;
            trace := [EvDirectoryLookup (bodyFid req); EvStoreGet a;
                      EvInitWallet; EvCreateClient] |})
  | case_presence_down a :
      requestFid req = Returned (bodyFid req) ->
      resolved w req = Returned a -> db !! a <> Some true ->
      wallet_ok w = true -> client_ok w = true ->
      isOnNetwork w a = None ->
      click_case o w url req db
        (Threw PresenceCheckFailed,
         {| store := db;
            trace := [EvDirectoryLookup (bodyFid req); EvStoreGet a;
                      EvInitWallet; EvCreateClient; EvPresenceCheck a None] |})
  | case_off_network a :
      requestFid req = Returned (bodyFid req) ->
      resolved w req = Returned a -> db !! a <> Some true ->
      wallet_ok w = true -> client_ok w = true ->
      isOnNetwork w a = Some false ->
      click_case o w url req db
        (Returned lblNotOnNetwork,
         {| store := db;
            trace := [EvDirectoryLookup (bodyFid req); EvStoreGet a;
                      EvInitWallet; EvCreateClient;
                      EvPresenceCheck a (Some false)] |})
  | case_no_conversation a :
      requestFid req = Returned (bodyFid req) ->
      resolved w req = Returned a -> db !! a <> Some true ->
      wallet_ok w = true -> client_ok w = true ->
      isOnNetwork w a = Some true -> conversation_ok w a = false ->
      click_case o w url req db
        (Threw MessageDeliveryFailed,
         {| store := if sameOrder WriteFirst o then <[a := true]> db else db;
            trace := [EvDirectoryLookup (bodyFid req); EvStoreGet a;
                      EvInitWallet; EvCreateClient;
                      EvPresenceCheck a (Some true)] ++
                     afterPresence o false a (optInText url) (send_ok w a) |})
  | case_subscribed a :
      requestFid req = Returned (bodyFid req) ->
      resolved w req = Returned a -> db !! a <> Some true ->
      wallet_ok w = true -> client_ok w = true ->
      isOnNetwork w a = Some true -> conversation_ok w a = true ->
      click_case o w url req db
        (Returned lblSubscribed,
         {| store := <[a := true]> db;
            trace := [EvDirectoryLookup (bodyFid req); EvStoreGet a;
                      EvInitWallet; EvCreateClient;
                      EvPresenceCheck a (Some true)] ++
                     afterPresence o true a (optInText url) (send_ok w a) |}).

End FrameProps.

(** ** Reading the consent page's state *)
Module ConsentProps.
Import Consent.

(** The other side of a consent, as the [if ... else if ...] assigns it. *)
Definition flipped (c : consentState) : consentState :=
  match c with
  | allowed => denied
  | unknown | denied => allowed
  end.

(** Every call of the click succeeds, and the client's address is [me]. *)
Definition all_succeed (w : world) (me : string) : Prop :=
  connectWallet_result w = Returned tt ∧
  create_result w = Returned me ∧
  refresh_result w = Returned tt ∧
  allow_result w = Returned tt ∧
  deny_result w = Returned tt.

(** One of the four steps is reached and throws [e]: the wallet connection,
    the client creation, the refresh of the consent list, or the call
    ([allow] or [deny]) that the consent read from the list selects. *)
Definition step_throws (w : world) (s : state) (e : exn) : Prop :=
  connectWallet_result w = Threw e ∨
  (connectWallet_result w = Returned tt ∧ create_result w = Threw e) ∨
  (∃ me, connectWallet_result w = Returned tt ∧
         create_result w = Returned me ∧ refresh_result w = Threw e) ∨
  (∃ me, connectWallet_result w = Returned tt ∧
         create_result w = Returned me ∧ refresh_result w = Returned tt ∧
         match consentOf s me with
         | allowed => deny_result w
         | unknown | denied => allow_result w
         end = Threw e).

Definition calm : world :=
  {| connectWallet_result := Returned tt;
     create_result := Returned "0xME";
     refresh_result := Returned tt;
     allow_result := Returned tt;
     deny_result := Returned tt |}.

(** The refresh of the consent list is rejected. *)
Definition refreshDown : world :=
  {| connectWallet_result := Returned tt;
     create_result := Returned "0xME";
     refresh_result := Threw RefreshFailed;
     allow_result := Returned tt;
     deny_result := Returned tt |}.

Definition blank : state :=
  {| loading := false; subscriptionStatus := "";
     console := []; consentList := ∅; network := ∅ |}.

End ConsentProps.

(** ** Further readings of a click *)
Module FrameMore.
Import Frame FrameProps.

(** The world with another directory. *)
Definition withDirectory (w : world) (d : jsvalue -> option directory_data)
  : world :=
  {| neynar := d; wallet_ok := wallet_ok w; client_ok := client_ok w;
     isOnNetwork := isOnNetwork w; conversation_ok := conversation_ok w;
     send_ok := send_ok w |}.


Definition is_presence (e : event) : bool :=
  match e with EvPresenceCheck _ _ => true | _ => false end.


(** The wallet cannot be initialised. *)
Definition walletDown : world :=
  {| neynar := neynar fairWeather;
     wallet_ok := false; client_ok := true;
     isOnNetwork := fun _ => Some true;
     conversation_ok := fun _ => true;
     send_ok := fun _ => true |}.

(** The directory knows nobody under the id. *)
Definition nobody : world :=
  withDirectory fairWeather (fun _ => Some {| users := Some [] |}).

End FrameMore.

(** ** Further readings of the consent page *)
Module ConsentMore.
Import Consent ConsentProps.


(** The world with other answers to [allow] and to [deny]. *)
Definition withAllow (w : world) (o : outcome unit) : world :=
  {| connectWallet_result := connectWallet_result w;
     create_result := create_result w;
     refresh_result := refresh_result w;
     allow_result := o;
     deny_result := deny_result w |}.

Definition withDeny (w : world) (o : outcome unit) : world :=
  {| connectWallet_result := connectWallet_result w;
     create_result := create_result w;
     refresh_result := refresh_result w;
     allow_result := allow_result w;
     deny_result := o |}.

End ConsentMore.

Module FrameFacts.
Import Frame FrameProps.

Ltac run_code :=
  cbv [click getResponse subscribe writeAt resolveAddress fetchUser
       firstUser firstVerification isSubscribed setSubscribed initializeWallet
       createXMTPClient checkAddressIsOnNetwork newConversation sendMessage
       reqJson lift emit bind ret throw modify gets];
  simpl.

Ltac run := unfold resolved; run_code.

(** Indices into a trace of known length. *)
Ltac index i :=
  repeat (destruct i as [|i]; simpl in *; try discriminate; try lia).

Example fair_weather_click o :
  (click o fairWeather "https://example.org" payload ∅).1 = Returned lblSubscribed.
Proof. by destruct o. Qed.

Example fair_weather_trace :
  trace (click WriteLast fairWeather "u" payload ∅).2 =
  [EvDirectoryLookup fid10952; EvStoreGet abc; EvInitWallet;
   EvCreateClient; EvPresenceCheck abc (Some true);
   EvNewConversation abc; EvSend abc (optInText "u") true; EvStoreSet abc].
Proof. reflexivity. Qed.

Example payload_is_a_double :
  num 10952 = JNumber (S754_finite false 6020925673701376 (-39)) ∧
  valid_binary 53 1024 (S754_finite false 6020925673701376 (-39)) = true.
Proof. split; reflexivity. Qed.

Lemma bodyFid_read req f : requestFid req = Returned f → bodyFid req = f.
Proof. unfold bodyFid. by intros ->. Qed.

Lemma resolved_unreadable w req e :
  requestFid req = Threw e → resolved w req = Threw e.
Proof. unfold resolved. by intros ->. Qed.

(** Two readings of the same resolution agree. *)
Ltac same_resolution :=
  repeat match goal with
         | H : requestFid ?r = Threw _, H' : resolved ?w ?r = _ |- _ =>
             rewrite (resolved_unreadable w r _ H) in H'; simplify_eq
         | H : ?x = Returned _, H' : ?x = _ |- _ => rewrite H in H'; simplify_eq
         | H : ?x = Threw _, H' : ?x = _ |- _ => rewrite H in H'; simplify_eq
         end.

(** A click whose body cannot be read stops before any call. *)
Lemma click_unreadable o w url req db e :
  requestFid req = Threw e →
  click o w url req db = (Threw e, {| store := db; trace := [] |}).
Proof.
  destruct req as [|[]]; run; intros H; try discriminate;
    by injection H as <-.
Qed.

(** A click whose body reads is the rest of the handler on its [fid]. *)
Lemma click_read o w url req db f :
  requestFid req = Returned f →
  click o w url req db =
  (let* accountAddress := resolveAddress w f in
   let* subscribed := isSubscribed accountAddress in
   if subscribed then ret lblAlready
   else subscribe o w url accountAddress) {| store := db; trace := [] |}.
Proof.
  destruct req as [|[]]; simpl; intros H; try discriminate;
    by injection H as <-.
Qed.

(** Every click goes one of the nine ways. *)
Lemma click_cases o w url req db :
  click_case o w url req db (click o w url req db).
Proof.
  destruct (requestFid req) as [f|e] eqn:Hf.
  2:{ rewrite (click_unreadable _ _ _ _ _ _ Hf). by constructor. }
  rewrite (click_read _ _ _ _ _ _ Hf).
  assert (Hb : requestFid req = Returned (bodyFid req))
    by (by rewrite (bodyFid_read _ _ Hf)).
  assert (Hr : resolved w req =
               (resolveAddress w (bodyFid req) {| store := ∅; trace := [] |}).1)
    by (unfold resolved; by rewrite Hb).
  rewrite <- (bodyFid_read _ _ Hf). clear Hf. revert Hr. run_code.
  destruct (neynar w (bodyFid req)) as [[[us|]]|]; simpl;
    [|intros Hr; by constructor..].
  destruct us as [|[[vs|]] us]; simpl; [intros Hr; by constructor| |
    intros Hr; by constructor].
  intros Hr. case_bool_decide as Hdb; simpl; [by constructor|].
  destruct (wallet_ok w) eqn:Hw; simpl; [|by constructor].
  destruct (client_ok w) eqn:Hc; simpl; [|by constructor].
  destruct (isOnNetwork w (head vs)) as [[|]|] eqn:Hp; simpl;
    [|by constructor..].
  destruct (conversation_ok w (head vs)) eqn:Hn.
  - destruct o; simpl;
      match goal with
      | |- click_case ?o _ _ _ _ _ =>
          by apply (case_subscribed o w url req db (head vs))
      end.
  - destruct o; simpl;
      match goal with
      | |- click_case ?o _ _ _ _ _ =>
          by apply (case_no_conversation o w url req db (head vs))
      end.
Qed.




(** C2: a click for an address that is not yet subscribed, is on the network
    and whose conversation and send succeed returns the label
    "Subscribed! Check your inbox for a confirmation link.", issues exactly
    one send (which is delivered) and exactly one store write, which sets
    [subscribed] for that address. *)
Theorem fresh_click_subscribes o w url req db a :
  resolved w req = Returned a →
  db !! a ≠ Some true →
  wallet_ok w = true → client_ok w = true →
  isOnNetwork w a = Some true →
  conversation_ok w a = true → send_ok w a = true →
  (click o w url req db).1 =
    Returned "Subscribed! Check your inbox for a confirmation link." ∧
  filter is_send (trace (click o w url req db).2) =
    [EvSend a (optInText url) true] ∧
  filter is_store_write (trace (click o w url req db).2) = [EvStoreSet a] ∧
  store (click o w url req db).2 = <[a := true]> db.
Proof.
  intros Hr Hdb Hw Hc Hp Hn Hs.
  destruct (click_cases o w url req db); same_resolution; try congruence.
  rewrite Hs. by destruct o.
Qed.

Lemma fresh_click_subscribes_witness :
  (click WriteLast fairWeather "u" payload ∅).1 =
    Returned "Subscribed! Check your inbox for a confirmation link." ∧
  filter is_send (trace (click WriteLast fairWeather "u" payload ∅).2) =
    [EvSend abc (optInText "u") true] ∧
  filter is_store_write (trace (click WriteLast fairWeather "u" payload ∅).2) =
    [EvStoreSet abc] ∧
  store (click WriteLast fairWeather "u" payload ∅).2 = <[abc := true]> ∅.
Proof.
  apply (fresh_click_subscribes WriteLast fairWeather "u" payload ∅ abc);
    [reflexivity | | reflexivity..].
  rewrite lookup_empty. discriminate.
Defined.

(** C3: a click whose address is already subscribed returns
    "You are already subscribed"; the calls it makes are the directory lookup
    and the store read and nothing else (no presence check, no conversation,
    no send, no store write), and the store is as it was. *)
Theorem subscribed_click_short_circuits o w url req db a :
  resolved w req = Returned a →
  db !! a = Some true →
  (click o w url req db).1 = Returned "You are already subscribed" ∧
  trace (click o w url req db).2 =
    [EvDirectoryLookup (bodyFid req); EvStoreGet a] ∧
  store (click o w url req db).2 = db.
Proof.
  intros Hr Hdb.
  destruct (click_cases o w url req db); same_resolution; congruence || done.
Qed.

Lemma subscribed_click_short_circuits_witness :
  (click WriteLast fairWeather "u" payload (<[abc := true]> ∅)).1 =
    Returned "You are already subscribed" ∧
  trace (click WriteLast fairWeather "u" payload (<[abc := true]> ∅)).2 =
    [EvDirectoryLookup fid10952; EvStoreGet abc] ∧
  store (click WriteLast fairWeather "u" payload (<[abc := true]> ∅)).2 =
    <[abc := true]> ∅.
Proof.
  apply (subscribed_click_short_circuits WriteLast fairWeather "u" payload
           (<[abc := true]> ∅) abc); reflexivity.
Defined.

(** In every click that makes a second call, that call is the store read,
    right after the directory lookup. *)
Lemma store_check_comes_first o w url req db e :
  trace (click o w url req db).2 !! 1 = Some e →
  ∃ a, e = EvStoreGet a ∧ resolved w req = Returned a.
Proof.
  destruct (click_cases o w url req db); simpl; try discriminate;
    intros [= <-]; eauto.
Qed.

(** What a click does when the presence check answers "no". *)
Lemma off_network_click o w url req db a :
  resolved w req = Returned a →
  db !! a ≠ Some true →
  wallet_ok w = true → client_ok w = true →
  isOnNetwork w a = Some false →
  (click o w url req db).1 = Returned lblNotOnNetwork ∧
  store (click o w url req db).2 = db.
Proof.
  intros Hr Hdb Hw Hc Hp.
  destruct (click_cases o w url req db); same_resolution; congruence || done.
Qed.

(** C4, at the README's payload with an address that is not on the network:
    the store is untouched, but the label the code returns carries a full
    stop and a blank after the text the README promises. *)
Theorem off_network_label o :
  (click o offNetwork "u" payload ∅).1 =
    Returned "Address is not on the XMTP network. " ∧
  (click o offNetwork "u" payload ∅).1 ≠
    Returned "Address is not on the XMTP network" ∧
  store (click o offNetwork "u" payload ∅).2 = ∅.
Proof. destruct o; (split_and!; [reflexivity | discriminate | reflexivity]). Qed.

(** No click ends in [IdentityNotFound]: nothing in the handler raises it. *)
Lemma never_IdentityNotFound o w url req db :
  (click o w url req db).1 ≠ Threw IdentityNotFound.
Proof.
  destruct (click_cases o w url req db) as [e H|e H0 H| | | | | | |];
    simpl; try done; intros [= ->]; revert H.
  - destruct req as [|[]]; simpl; done.
  - unfold resolved. rewrite H0. run_code.
    destruct (neynar w _) as [[[us|]]|]; simpl; try done.
    destruct us as [|[[vs|]] us]; done.
Qed.

(** C5 as written fails, wherever the write sits: with an empty
    verification list the address is [undefined], no error is raised, and
    the click goes on to the store, the wallet, the client, the presence
    check and the message. *)
Lemma empty_verifications_go_unnoticed :
  resolved noVerifications payload = Returned None ∧
  in_every_order (λ o,
    ¬ identity_failure_as_claimed o noVerifications "u" payload ∅ ∧
    (click o noVerifications "u" payload ∅).1 = Returned lblSubscribed ∧
    store (click o noVerifications "u" payload ∅).2 !! None = Some true ∧
    length (trace (click o noVerifications "u" payload ∅).2) = 8).
Proof.
  split; [reflexivity|].
  split_and!; try reflexivity; intros (H & _); discriminate H.
Qed.

(** C5, as the code has it: when the directory's first user has no verified
    address, an empty list makes the address [undefined] without any error,
    and the click continues with the store read for that value; a missing
    list makes the click throw the runtime's [TypeError] right after the
    directory lookup, with the store as it was.  Neither case ends in
    [IdentityNotFound]. *)
Theorem no_verified_address o w url req db f u us :
  requestFid req = Returned f →
  neynar w f = Some {| users := Some (u :: us) |} →
  verifications u = None ∨ verifications u = Some [] →
  match verifications u with
  | Some _ =>
      resolved w req = Returned None ∧
      trace (click o w url req db).2 !! 1 = Some (EvStoreGet None)
  | None =>
      (click o w url req db).1 = Threw TypeError ∧
      store (click o w url req db).2 = db ∧
      trace (click o w url req db).2 = [EvDirectoryLookup f]
  end ∧
  (click o w url req db).1 ≠ Threw IdentityNotFound.
Proof.
  intros Hf Hn Hv. split; [|apply never_IdentityNotFound].
  assert (Hb := bodyFid_read _ _ Hf).
  destruct Hv as [Hv|Hv]; rewrite Hv.
  - assert (Hr : resolved w req = Threw TypeError).
    { unfold resolved. rewrite Hf. run_code. rewrite Hn. simpl. by rewrite Hv. }
    destruct (click_cases o w url req db); same_resolution;
      try congruence; done.
  - assert (Hr : resolved w req = Returned None).
    { unfold resolved. rewrite Hf. run_code. rewrite Hn. simpl. by rewrite Hv. }
    split; [done|].
    destruct (click_cases o w url req db); same_resolution;
      try congruence; done.
Qed.

Lemma no_verified_address_witness :
  (resolved noVerifications payload = Returned None ∧
   trace (click WriteLast noVerifications "u" payload ∅).2 !! 1 =
     Some (EvStoreGet None)) ∧
  (click WriteLast noVerifications "u" payload ∅).1 ≠ Threw IdentityNotFound.
Proof.
  apply (no_verified_address WriteLast noVerifications "u" payload ∅ fid10952
           {| verifications := Some [] |} []);
    [reflexivity | reflexivity | right; reflexivity].
Defined.

(** C6: when the presence check itself fails, the click ends in
    [PresenceCheckFailed]; it returns no label, in particular not the
    negative answer's, and the store is as it was. *)
Theorem presence_failure_is_surfaced o w url req db a :
  resolved w req = Returned a →
  db !! a ≠ Some true →
  wallet_ok w = true → client_ok w = true →
  isOnNetwork w a = None →
  (click o w url req db).1 = Threw PresenceCheckFailed ∧
  (click o w url req db).1 ≠ Returned "Address is not on the XMTP network" ∧
  (click o w url req db).1 ≠ Returned lblNotOnNetwork ∧
  store (click o w url req db).2 = db.
Proof.
  intros Hr Hdb Hw Hc Hp.
  destruct (click_cases o w url req db); same_resolution; congruence || done.
Qed.

Lemma presence_failure_is_surfaced_witness :
  (click WriteLast presenceDown "u" payload ∅).1 = Threw PresenceCheckFailed ∧
  (click WriteLast presenceDown "u" payload ∅).1 ≠
    Returned "Address is not on the XMTP network" ∧
  (click WriteLast presenceDown "u" payload ∅).1 ≠ Returned lblNotOnNetwork ∧
  store (click WriteLast presenceDown "u" payload ∅).2 = ∅.
Proof.
  apply (presence_failure_is_surfaced WriteLast presenceDown "u" payload ∅ abc);
    [reflexivity | | reflexivity..].
  rewrite lookup_empty. discriminate.
Defined.




(** What a failed conversation leaves in the store depends on where the
    write sits, which no excerpt decides. *)
Example conversation_failure_store :
  store (click WriteFirst conversationFails "u" payload ∅).2 !! abc = Some true ∧
  store (click WriteLast conversationFails "u" payload ∅).2 !! abc = None.
Proof. split; reflexivity. Qed.

(** A click depends on the request through the [fid] it reads, or the
    exception the reading throws, and through nothing else. *)
Lemma click_depends_on_fid o w url req1 req2 db :
  requestFid req1 = requestFid req2 →
  click o w url req1 db = click o w url req2 db.
Proof.
  intros H. destruct (requestFid req1) as [f|e] eqn:H1.
  - by rewrite (click_read _ _ _ _ _ _ H1), (click_read _ _ _ req2 _ f).
  - by rewrite (click_unreadable _ _ _ _ _ _ H1),
               (click_unreadable _ _ _ req2 _ e).
Qed.

(** C10: two requests that differ only in [buttonIndex] get the same answer
    and cause the same calls and the same store. *)
Theorem buttonIndex_is_ignored o w url db b1 b2 :
  differ_only_in_buttonIndex b1 b2 →
  click o w url (Json b1) db = click o w url (Json b2) db.
Proof.
  intros (ms1 & ms2 & u1 & u2 & -> & -> & H1 & H2 & _ & Hu).
  apply click_depends_on_fid. simpl. rewrite H1, H2. simpl.
  by rewrite Hu.
Qed.

Lemma buttonIndex_is_ignored_witness :
  click WriteLast fairWeather "u" (payloadWith 1) ∅ =
  click WriteLast fairWeather "u" (payloadWith 2) ∅.
Proof.
  apply (buttonIndex_is_ignored WriteLast fairWeather "u" ∅).
  eexists _, _, _, _. split_and!; try reflexivity;
    intros k Hk; simpl;
    repeat (match goal with
            | |- context [String.eqb k ?s] =>
                destruct (String.eqb_spec k s) as [->|?]
            end; try done).
Defined.

End FrameFacts.

Module ConsentFacts.
Import Consent ConsentProps.

Ltac run :=
  cbv [handleClick handleClickBody try_catch toggleConsent contactsAllow
       contactsDeny record readConsent refreshConsentList createClient
       connectWallet setLoading setSubscriptionStatus console_log
       setConsentList setNetwork lift bind ret throw modify gets];
  simpl.

Example first_click_allows :
  subscriptionStatus (handleClick calm blank).2 = "Consent State: allowed".
Proof. reflexivity. Qed.

Example second_click_denies :
  subscriptionStatus (handleClick calm (handleClick calm blank).2).2 =
  "Consent State: denied".
Proof. reflexivity. Qed.

(** A click in which every call succeeds. *)
Lemma handleClick_succeeds w me s :
  all_succeed w me →
  handleClick w s =
  (Returned tt,
   {| loading := false;
      subscriptionStatus := statusLabel (flipped (consentOf s me));
      console := console s ++ [LogText me];
      consentList := <[me := flipped (consentOf s me)]> (network s);
      network := <[me := flipped (consentOf s me)]> (network s) |}).
Proof.
  intros (Hw & Hc & Hr & Ha & Hd). unfold consentOf. run.
  rewrite Hw, Hc, Hr. simpl.
  destruct (default unknown (network s !! me)); simpl;
    rewrite ?Ha, ?Hd; reflexivity.
Qed.

Lemma consentOf_after w me s :
  all_succeed w me →
  consentOf (handleClick w s).2 me = flipped (consentOf s me).
Proof.
  intros H. rewrite (handleClick_succeeds _ _ _ H).
  unfold consentOf at 1. simpl. by rewrite lookup_insert_eq.
Qed.

(** C8: a click in which every call succeeds takes the consent from
    [unknown] or [denied] to [allowed] and from [allowed] to [denied]; a
    second click on the state the first one left takes [denied] back to
    [denied] and [allowed] back to [allowed], but takes [unknown] to
    [denied], not back to [unknown]. *)
Theorem consent_toggle w me s :
  all_succeed w me →
  (consentOf s me = unknown →
     consentOf (handleClick w s).2 me = allowed ∧
     consentOf (handleClick w (handleClick w s).2).2 me = denied ∧
     consentOf (handleClick w (handleClick w s).2).2 me ≠ consentOf s me) ∧
  (consentOf s me = denied →
     consentOf (handleClick w s).2 me = allowed ∧
     consentOf (handleClick w (handleClick w s).2).2 me = denied) ∧
  (consentOf s me = allowed →
     consentOf (handleClick w s).2 me = denied ∧
     consentOf (handleClick w (handleClick w s).2).2 me = allowed) ∧
  subscriptionStatus (handleClick w s).2 =
    "Consent State: " +:+ consentName (consentOf (handleClick w s).2 me).
Proof.
  intros H. rewrite !(consentOf_after _ _ _ H).
  split_and!.
  - intros ->. done.
  - intros ->. done.
  - intros ->. done.
  - by rewrite (handleClick_succeeds _ _ _ H).
Qed.

Lemma consent_toggle_witness :
  consentOf blank "0xME" = unknown ∧
  consentOf (handleClick calm blank).2 "0xME" = allowed ∧
  consentOf (handleClick calm (handleClick calm blank).2).2 "0xME" = denied.
Proof.
  destruct (consent_toggle calm "0xME" blank) as (H & _).
  { repeat split. }
  destruct (H eq_refl) as (H1 & H2 & _).
  split_and!; [reflexivity | exact H1 | exact H2].
Defined.

(** The click handler never throws. *)
Lemma handleClick_returns w s : (handleClick w s).1 = Returned tt.
Proof.
  run. destruct (connectWallet_result w) as [[]|]; simpl; [|done].
  destruct (create_result w) as [me|]; simpl; [|done].
  destruct (refresh_result w) as [[]|]; simpl; [|done].
  destruct (default unknown (network s !! me)); simpl;
    [destruct (allow_result w) as [[]|] | destruct (deny_result w) as [[]|]
    | destruct (allow_result w) as [[]|]]; done.
Qed.

(** C9: when the wallet connection, the client creation, the refresh of the
    consent list or the allow/deny call throws, the click handler returns
    normally, the exception is the last thing logged, the displayed label is
    the one from before the click, and the consent the network holds is
    unchanged. *)
Theorem failed_update_is_swallowed w s e :
  step_throws w s e →
  (handleClick w s).1 = Returned tt ∧
  last (console (handleClick w s).2) = Some (LogError e) ∧
  subscriptionStatus (handleClick w s).2 = subscriptionStatus s ∧
  network (handleClick w s).2 = network s.
Proof.
  intros H. split; [apply handleClick_returns|]. revert H.
  unfold step_throws, consentOf. run.
  intros [H|[(Hw & H)|[(me & Hw & Hc & H)|(me & Hw & Hc & Hr & H)]]].
  - rewrite H. simpl. by rewrite last_snoc.
  - rewrite Hw, H. simpl. by rewrite last_snoc.
  - rewrite Hw, Hc, H. simpl. by rewrite last_snoc.
  - rewrite Hw, Hc, Hr. simpl.
    destruct (default unknown (network s !! me)); simpl; rewrite H; simpl;
      by rewrite last_snoc.
Qed.

Lemma failed_update_is_swallowed_witness :
  (handleClick refreshDown blank).1 = Returned tt ∧
  last (console (handleClick refreshDown blank).2) = Some (LogError RefreshFailed) ∧
  subscriptionStatus (handleClick refreshDown blank).2 = "" ∧
  network (handleClick refreshDown blank).2 = ∅.
Proof.
  apply (failed_update_is_swallowed refreshDown blank RefreshFailed).
  right. right. left. exists "0xME". repeat split.
Defined.

End ConsentFacts.

(** ** More on the click handler *)
Module FrameExtra.
Import Frame FrameProps FrameMore FrameFacts.

(** A label a click returns is one of three fixed texts. *)
Theorem click_label_is_one_of_three o w url req db l :
  (click o w url req db).1 = Returned l →
  l = "You are already subscribed" ∨
  l = "Address is not on the XMTP network. " ∨
  l = "Subscribed! Check your inbox for a confirmation link.".
Proof.
  destruct (click_cases o w url req db); simpl; intros [= <-]; auto.
Qed.

Lemma click_label_is_one_of_three_witness :
  lblNotOnNetwork = "You are already subscribed" ∨
  lblNotOnNetwork = "Address is not on the XMTP network. " ∨
  lblNotOnNetwork = "Subscribed! Check your inbox for a confirmation link.".
Proof.
  apply (click_label_is_one_of_three WriteLast offNetwork "u" payload ∅
           lblNotOnNetwork).
  reflexivity.
Defined.

(** The success label is returned exactly when the address resolves, is not
    yet subscribed, the wallet and the client come up, the presence check
    answers "yes" and the conversation opens; the fate of the send plays no
    part. *)
Theorem success_label_iff o w url req db :
  (click o w url req db).1 =
    Returned "Subscribed! Check your inbox for a confirmation link." ↔
  ∃ a, resolved w req = Returned a ∧ db !! a ≠ Some true ∧
       wallet_ok w = true ∧ client_ok w = true ∧
       isOnNetwork w a = Some true ∧ conversation_ok w a = true.
Proof.
  split.
  - destruct (click_cases o w url req db); simpl; intros [=]; eauto 10.
  - intros (a & Hr & Hdb & Hw & Hc & Hp & Hn).
    destruct (click_cases o w url req db); simpl; same_resolution;
      try reflexivity; congruence.
Qed.

(** A click leaves every entry of the store as it was, except that of the
    address it resolved; and an entry that says "subscribed" is never cleared
    or removed. *)
Theorem click_changes_one_entry o w url req db k :
  (resolved w req ≠ Returned k →
     store (click o w url req db).2 !! k = db !! k) ∧
  (db !! k = Some true →
     store (click o w url req db).2 !! k = Some true).
Proof.
  destruct (click_cases o w url req db); destruct o; simpl; split; try done;
    intros Hk;
    (destruct (decide (a = k)) as [->|Hne];
      [by rewrite ?lookup_insert_eq | by rewrite lookup_insert_ne]).
Qed.

Lemma click_changes_one_entry_witness :
  store (click WriteLast fairWeather "u" payload ∅).2 !! Some "0xDEF" =
  (∅ : gmap address bool) !! Some "0xDEF".
Proof.
  apply (proj1 (click_changes_one_entry WriteLast fairWeather "u" payload ∅
                  (Some "0xDEF"))).
  discriminate.
Defined.


(** Of the directory's answer only the first user's first verified address
    counts: further users and further addresses change nothing. *)
Theorem only_first_verification_counts o w d1 d2 url req db v vs1 vs2 us1 us2 :
  d1 (bodyFid req) =
    Some {| users := Some ({| verifications := Some (v :: vs1) |} :: us1) |} →
  d2 (bodyFid req) =
    Some {| users := Some ({| verifications := Some (v :: vs2) |} :: us2) |} →
  click o (withDirectory w d1) url req db = click o (withDirectory w d2) url req db.
Proof.
  intros H1 H2. destruct (requestFid req) as [f|e] eqn:Hf.
  - rewrite !(click_read _ _ _ _ _ _ Hf).
    rewrite (bodyFid_read _ _ Hf) in H1, H2.
    run_code. by rewrite H1, H2.
  - by rewrite !(click_unreadable _ _ _ _ _ _ Hf).
Qed.

Lemma only_first_verification_counts_witness :
  click WriteLast
        (withDirectory fairWeather
           (λ _, Some {| users := Some [ {| verifications := Some ["0xABC"; "0xDEF"] |};
                                         {| verifications := Some ["0x123"] |} ] |}))
        "u" payload ∅ =
  click WriteLast (withDirectory fairWeather (λ _, oneUser (Some ["0xABC"])))
        "u" payload ∅.
Proof.
  apply (only_first_verification_counts WriteLast fairWeather _ _ "u" payload ∅
           "0xABC" ["0xDEF"] [] [ {| verifications := Some ["0x123"] |} ] []);
    reflexivity.
Defined.


(** When the directory request fails, or its answer has no [users] or an
    empty [users], the click throws ([FetchFailed] for the request, the
    runtime's [TypeError] otherwise) right after the lookup and leaves the
    store as it was. *)
Theorem directory_failure_stops_the_click o w url req db f :
  requestFid req = Returned f →
  neynar w f = None ∨
  neynar w f = Some {| users := None |} ∨
  neynar w f = Some {| users := Some [] |} →
  (click o w url req db).1 =
    Threw (match neynar w f with
           | None => FetchFailed
           | Some _ => TypeError
           end) ∧
  store (click o w url req db).2 = db ∧
  trace (click o w url req db).2 = [EvDirectoryLookup f].
Proof.
  intros Hf H.
  assert (Hr : resolved w req =
               Threw (match neynar w f with
                      | None => FetchFailed
                      | Some _ => TypeError
                      end)).
  { unfold resolved. rewrite Hf. run_code. by destruct H as [->|[->| ->]]. }
  assert (Hb := bodyFid_read _ _ Hf).
  destruct (click_cases o w url req db); same_resolution; by subst.
Qed.

Lemma directory_failure_stops_the_click_witness :
  (click WriteLast nobody "u" payload ∅).1 = Threw TypeError ∧
  store (click WriteLast nobody "u" payload ∅).2 = ∅ ∧
  trace (click WriteLast nobody "u" payload ∅).2 = [EvDirectoryLookup fid10952].
Proof.
  apply (directory_failure_stops_the_click WriteLast nobody "u" payload ∅ fid10952);
    [reflexivity|].
  right. right. reflexivity.
Defined.

(** When the wallet or the client cannot be set up for an address that is
    not yet subscribed, the click throws that failure; the store is as it
    was, and neither the presence check nor the conversation nor the send is
    reached. *)
Theorem wallet_or_client_failure o w url req db a :
  resolved w req = Returned a →
  db !! a ≠ Some true →
  wallet_ok w = false ∨ client_ok w = false →
  (click o w url req db).1 =
    Threw (if wallet_ok w then ClientFailed else WalletFailed) ∧
  store (click o w url req db).2 = db ∧
  filter is_presence (trace (click o w url req db).2) = [] ∧
  filter is_store_write (trace (click o w url req db).2) = [] ∧
  filter is_messaging (trace (click o w url req db).2) = [].
Proof.
  intros Hr Hdb H.
  destruct (click_cases o w url req db) as
    [e H'|e H0 H'|a' H0 H' H1|a' H0 H' H1 H2|a' H0 H' H1 H2 H3
    |a' H0 H' H1 H2 H3 H4|a' H0 H' H1 H2 H3 H4|a' H0 H' H1 H2 H3 H4 H5
    |a' H0 H' H1 H2 H3 H4 H5];
    same_resolution; try done; try (destruct H; congruence).
  - by rewrite H2.
  - by rewrite H2.
Qed.

Lemma wallet_or_client_failure_witness :
  (click WriteLast walletDown "u" payload ∅).1 = Threw WalletFailed ∧
  store (click WriteLast walletDown "u" payload ∅).2 = ∅ ∧
  filter is_presence (trace (click WriteLast walletDown "u" payload ∅).2) = [] ∧
  filter is_store_write (trace (click WriteLast walletDown "u" payload ∅).2) = [] ∧
  filter is_messaging (trace (click WriteLast walletDown "u" payload ∅).2) = [].
Proof.
  apply (wallet_or_client_failure WriteLast walletDown "u" payload ∅ abc);
    [reflexivity | rewrite lookup_empty; discriminate | left; reflexivity].
Defined.

(** A send, when a click makes one, is the click's only send: it goes to the
    resolved address, after the conversation with that address was opened,
    and carries the text of the template literal with the consent link
    [apiUrl/consent] on a line of its own. *)
Theorem sends_go_to_the_resolved_address o w url req db i a text d :
  trace (click o w url req db).2 !! i = Some (EvSend a text d) →
  resolved w req = Returned a ∧
  text =
    "You're almost there! If you're viewing this in an inbox with portable consent, simply click the "
    +:+ dquote +:+ "Accept" +:+ dquote +:+
    " button below to complete your subscription and start receiving updates. If the button doesn't appear, please confirm your consent by visiting the following link:"
    +:+ newline +:+ newline +:+ "    " +:+ url +:+ "/consent" +:+ newline +:+ newline +:+
    "    This ensures your privacy and consent are respected. Thank you for joining us!" ∧
  d = send_ok w a ∧
  conversation_ok w a = true ∧
  (∃ j, j < i ∧
        trace (click o w url req db).2 !! j = Some (EvNewConversation a)) ∧
  filter is_send (trace (click o w url req db).2) = [EvSend a text d].
Proof.
  destruct (click_cases o w url req db); destruct o; simpl; intros Hi; index i;
    injection Hi as <- <- <-; (split_and!; try done);
    first [ exists 5; split; [lia|reflexivity]
          | exists 6; split; [lia|reflexivity] ].
Qed.

Lemma sends_go_to_the_resolved_address_witness :
  trace (click WriteLast fairWeather "u" payload ∅).2 !! 6 =
    Some (EvSend abc (optInText "u") true) ∧
  resolved fairWeather payload = Returned abc.
Proof.
  split; [reflexivity|].
  apply (sends_go_to_the_resolved_address WriteLast fairWeather "u" payload ∅ 6
           abc (optInText "u") true).
  reflexivity.
Defined.




End FrameExtra.

(** ** More on the consent page *)
Module ConsentExtra.
Import Consent ConsentProps ConsentMore ConsentFacts.

(** The loading flag is left on exactly by the clicks in which a step
    throws: the [catch] logs and does not reset it. *)
Theorem spinner_stays_on_after_failure w s :
  loading (handleClick w s).2 = true ↔ ∃ e, step_throws w s e.
Proof.
  unfold step_throws, consentOf. run.
  destruct (connectWallet_result w) as [[]|e1] eqn:Hw; simpl.
  2:{ split; [intros _; exists e1; by left|done]. }
  destruct (create_result w) as [me|e2] eqn:Hc; simpl.
  2:{ split; [intros _; exists e2; right; by left|done]. }
  destruct (refresh_result w) as [[]|e3] eqn:Hr; simpl.
  2:{ split; [intros _; exists e3; do 2 right; left; by exists me|done]. }
  assert (Hlast :
    (∃ e, Returned tt = Threw e ∨ (Returned tt = Returned tt ∧ Returned me = Threw e) ∨
          (∃ me0, Returned tt = Returned tt ∧ Returned me = Returned me0 ∧
                  Returned tt = Threw e) ∨
          (∃ me0, Returned tt = Returned tt ∧ Returned me = Returned me0 ∧
                  Returned tt = Returned tt ∧
                  match default unknown (network s !! me0) with
                  | allowed => deny_result w
                  | _ => allow_result w
                  end = Threw e)) ↔
    ∃ e, match default unknown (network s !! me) with
         | allowed => deny_result w
         | _ => allow_result w
         end = Threw e).
  { split.
    - intros (e & [H|[[_ H]|[(me0 & _ & _ & H)|(me0 & _ & Hm & _ & H)]]]);
        try discriminate.
      injection Hm as <-. eauto.
    - intros (e & H). exists e. do 3 right. by exists me. }
  rewrite Hlast. clear Hlast.
  destruct (default unknown (network s !! me)); simpl;
    [destruct (allow_result w) as [[]|e4]
    |destruct (deny_result w) as [[]|e4]
    |destruct (allow_result w) as [[]|e4]]; simpl;
    (split; [intros H; try discriminate; eauto | intros (e & H); by try discriminate]).
Qed.

(** A click changes the consent of no address but the client's own; when no
    client is created it changes none. *)
Theorem other_addresses_untouched w s a :
  (∀ me, create_result w = Returned me → a ≠ me) →
  consentOf (handleClick w s).2 a = consentOf s a.
Proof.
  intros Hne. unfold consentOf. run.
  destruct (connectWallet_result w) as [[]|]; simpl; [|done].
  destruct (create_result w) as [me|]; simpl; [|done].
  specialize (Hne me eq_refl).
  destruct (refresh_result w) as [[]|]; simpl; [|done].
  destruct (default unknown (network s !! me)); simpl;
    [destruct (allow_result w) as [[]|]
    |destruct (deny_result w) as [[]|]
    |destruct (allow_result w) as [[]|]]; simpl;
    by rewrite ?lookup_insert_ne.
Qed.

Lemma other_addresses_untouched_witness :
  consentOf (handleClick calm blank).2 "0xOTHER" = consentOf blank "0xOTHER".
Proof.
  apply (other_addresses_untouched calm blank "0xOTHER").
  intros me [= <-]. discriminate.
Defined.

(** What a click can do to the label and to a consent that is known. *)
Lemma label_after_click w s :
  (subscriptionStatus (handleClick w s).2 = subscriptionStatus s ∨
   subscriptionStatus (handleClick w s).2 = "Consent State: allowed" ∨
   subscriptionStatus (handleClick w s).2 = "Consent State: denied") ∧
  ∀ a, consentOf s a ≠ unknown → consentOf (handleClick w s).2 a ≠ unknown.
Proof.
  unfold consentOf. run.
  destruct (connectWallet_result w) as [[]|]; simpl; [|by auto].
  destruct (create_result w) as [me|]; simpl; [|by auto].
  destruct (refresh_result w) as [[]|]; simpl; [|by auto].
  destruct (default unknown (network s !! me)); simpl;
    [destruct (allow_result w) as [[]|]
    |destruct (deny_result w) as [[]|]
    |destruct (allow_result w) as [[]|]]; simpl;
    (split; [by auto|]); try done;
    intros a Ha; (destruct (decide (me = a)) as [->|Hne];
      [by rewrite lookup_insert_eq | by rewrite lookup_insert_ne]).
Qed.

(** A click never writes "Consent State: unknown": the label after a click
    is the one from before (as after a click that failed) or one of
    "Consent State: allowed" and "Consent State: denied", so that it reads
    "unknown" only if it did before the click; and no click takes an address
    whose consent is known back to [unknown]. *)
Theorem click_never_writes_unknown w s :
  (subscriptionStatus (handleClick w s).2 = subscriptionStatus s ∨
   subscriptionStatus (handleClick w s).2 = "Consent State: allowed" ∨
   subscriptionStatus (handleClick w s).2 = "Consent State: denied") ∧
  (subscriptionStatus (handleClick w s).2 = "Consent State: unknown" →
   subscriptionStatus s = "Consent State: unknown") ∧
  ∀ a, consentOf s a ≠ unknown → consentOf (handleClick w s).2 a ≠ unknown.
Proof.
  destruct (label_after_click w s) as [Hl Hc]. split_and!; [done| |done].
  intros Hu. destruct Hl as [Hl|[Hl|Hl]]; rewrite Hl in Hu;
    [done | discriminate..].
Qed.

Lemma click_never_writes_unknown_witness :
  subscriptionStatus
    (handleClick refreshDown
       {| loading := false; subscriptionStatus := "Consent State: unknown";
          console := []; consentList := ∅; network := ∅ |}).2 =
    "Consent State: unknown" ∧
  consentOf
    (handleClick calm
       {| loading := false; subscriptionStatus := ""; console := [];
          consentList := ∅; network := {[ "0xME" := denied ]} |}).2
    "0xME" ≠ unknown.
Proof.
  split; [reflexivity|].
  apply (proj2 (proj2 (click_never_writes_unknown calm
                  {| loading := false; subscriptionStatus := ""; console := [];
                     consentList := ∅; network := {[ "0xME" := denied ]} |}))
               "0xME").
  discriminate.
Defined.




(** Only one of [allow] and [deny] is called in a click: what the other one
    would have answered changes nothing. *)
Theorem the_other_call_is_not_made w me s o :
  create_result w = Returned me →
  handleClick (match consentOf s me with
               | allowed => withAllow w o
               | unknown | denied => withDeny w o
               end) s =
  handleClick w s.
Proof.
  intros Hc. unfold consentOf.
  destruct (default unknown (network s !! me)) eqn:Hs; run; rewrite Hc;
    destruct (connectWallet_result w) as [[]|]; simpl; try done;
    destruct (refresh_result w) as [[]|]; simpl; try done;
    by rewrite Hs.
Qed.

Lemma the_other_call_is_not_made_witness :
  handleClick (withDeny calm (Threw ConsentCallFailed)) blank =
  handleClick calm blank.
Proof.
  apply (the_other_call_is_not_made calm "0xME" blank (Threw ConsentCallFailed)).
  reflexivity.
Defined.

End ConsentExtra.

(** ** The webpack hook *)
Module NextConfigFacts.
Import NextConfig.

Example wasm_file_matches : test wasmPattern "xmtp_bg.wasm" = true.
Proof. reflexivity. Qed.

Example wasm_map_does_not_match : test wasmPattern "xmtp_bg.wasm.map" = false.
Proof. reflexivity. Qed.

(** The rule's pattern applies to a file name exactly when the name ends in
    ".wasm". *)
Theorem wasm_rule_applies_to_suffix (name : string) :
  test (ruleTest wasmRule) name = true ↔ ∃ p, name = p +:+ ".wasm".
Proof.
  simpl. split.
  - induction name as [|c name IH]; simpl.
    + discriminate.
    + intros H. apply orb_true_iff in H as [H|H].
      * apply String.eqb_eq in H. exists "". by rewrite H.
      * destruct (IH H) as [p ->]. by exists (String c p).
  - intros [p ->]. induction p as [|c p IH].
    + reflexivity.
    + change (String c p +:+ ".wasm") with (String c (p +:+ ".wasm")).
      cbn [test]. rewrite IH. apply orb_true_r.
Qed.

(** Each call of the hook appends one more copy of the rule after the rules
    already there and leaves the other settings alone, so [n] calls leave [n]
    copies; on a configuration without [module.rules] the first call
    throws. *)
Theorem webpack_appends_each_time {T} (n : nat) (c : config T) :
  webpackTimes n c =
  match moduleRules c, n with
  | Some rs, _ =>
      Returned {| moduleRules := Some (rs ++ replicate n wasmRule)%list;
                  settings := settings c |}
  | None, O => Returned c
  | None, S _ => Threw TypeError
  end.
Proof.
  destruct c as [[rs|] st]; simpl.
  - induction n as [|n IH]; simpl.
    + by rewrite app_nil_r.
    + rewrite IH. unfold webpack. simpl.
      rewrite <- app_assoc. do 3 f_equal.
      change [wasmRule] with (replicate 1 wasmRule).
      rewrite <- replicate_add. by rewrite Nat.add_comm.
  - destruct n as [|n]; [done|].
    induction n as [|n IH]; [done|].
    simpl in *. by rewrite IH.
Qed.

End NextConfigFacts.
